(** * golang-notebook: the "accept interfaces, return structs" example

    A shallow embedding of the Go packages [db], [service] and [main] of
    examples/best-practices/accept-interfaces-return-structs, together with
    the listing of the same packages in the best-practices page, and the
    properties of the service/store pair.

    Go values are modelled as follows.
    - A pointer is [None] (nil) or [Some l] for a heap address [l]; every
      struct type has its own heap, a finite map from addresses to structs.
    - An [error] is [None] (nil) or [Some msg], [msg] being the text its
      [Error()] method yields.
    - A function with effects is a function from the memory before the
      call to an [Outcome]: a normal return with the memory after the
      call, or a panic together with the memory at the point of the panic. *)

From stdpp Require Import gmap strings list fin_maps pretty.

Open Scope string_scope.

(** ** Go runtime *)

Abbreviation loc := positive.
Abbreviation ptr := (option positive).
Abbreviation error := (option string).

Inductive Outcome (S A : Type) : Type :=
| Done (a : A) (s : S)
| Panic (why : string) (s : S).
Arguments Done {S A} a s.
Arguments Panic {S A} why s.

Definition M (S A : Type) : Type := S -> Outcome S A.

Definition ret {S A} (a : A) : M S A := fun s => Done a s.

Definition bind {S A C} (c : M S A) (k : A -> M S C) : M S C :=
  fun s =>
    match c s with
    | Done a s' => k a s'
    | Panic why s' => Panic why s'
    end.

Definition panic {S A} (why : string) : M S A := fun s => Panic why s.

Notation "x <- c1 ;; c2" := (bind c1 (fun x => c2))
  (at level 100, c1 at next level, right associativity).

(** The memory an outcome ends in, and the value it returns if it does. *)
Definition mem_of {S A} (o : Outcome S A) : S :=
  match o with Done _ s => s | Panic _ s => s end.

Definition returned {S A} (o : Outcome S A) : option A :=
  match o with Done a _ => Some a | Panic _ _ => None end.

Definition nil_deref : string :=
  "invalid memory address or nil pointer dereference".

(** context.Context: the service receives it and never looks at it. *)
Module context.

Inductive Context : Type :=
| Background
| TODO.

End context.

(** ** Types of package service *)

Record User : Type := mkUser { ID : string; Email : string }.

(** The zero value [User{}]. *)
Definition zero_User : User := {| ID := ""; Email := "" |}.

#[global] Instance User_inhabited : Inhabited User := populate zero_User.

(** The values that reach an [interface{}] parameter of the store in this
    program: the nil interface, a boxed [User], or a boxed [*User] (whose
    pointer may itself be nil). *)
Inductive any : Type :=
| AnyNil
| AnyUser (v : User)
| AnyUserPtr (p : ptr).

(** What a store method can reach: the [User] cells (through the pointers
    it is handed) and the memory [B] private to the store implementation. *)
Record StoreMem (B : Type) : Type := mkStoreMem {
  users : gmap loc User;
  backend : B
}.
Arguments mkStoreMem {B} users backend.
Arguments users {B} s.
Arguments backend {B} s.

(** A non-nil value of interface type [UserStorer]: the receiver word and
    the two methods of its dynamic type. *)
Record UserStorerImpl (B : Type) : Type := mkUserStorer {
  recv : ptr;
  Insert : ptr -> any -> M (StoreMem B) error;
  Get : ptr -> string -> any -> M (StoreMem B) error
}.
Arguments mkUserStorer {B} recv Insert Get.
Arguments recv {B} u.
Arguments Insert {B} u.
Arguments Get {B} u.

(** An interface value is nil or an implementation. *)
Abbreviation UserStorer B := (option (UserStorerImpl B)).

Record UserService (B : Type) : Type := mkUserService {
  store : UserStorer B
}.
Arguments mkUserService {B} store.
Arguments store {B} u.

(** ** Types of package db *)

(** [sql.DB{}]: the zero handle; its fields are private to database/sql. *)
Inductive sql_DB : Type := zero_sql_DB.

Record Store : Type := mkStore { db : ptr }.

Record DBMem : Type := mkDBMem {
  sql_DBs : gmap loc sql_DB;
  Stores : gmap loc Store
}.

(** ** Program memory *)

(** What crossed the [UserStorer] interface: each method call made through
    an interface value, with its arguments and how it ended. *)
Inductive CallResult : Type :=
| Returned (e : error)
| Panicked.

Inductive StoreCall : Type :=
| CalledInsert (item : any) (r : CallResult)
| CalledGet (id : string) (val : any) (r : CallResult).

(** The field [store] is unexported and no service pointer is ever handed
    to a store, so the [UserService] cells, the call history and standard
    output lie outside what store methods run on. *)
Record Mem (B : Type) : Type := mkMem {
  shared : StoreMem B;
  services : gmap loc (UserService B);
  calls : list StoreCall;
  stdout : list string
}.
Arguments mkMem {B} shared services calls stdout.
Arguments shared {B} m.
Arguments services {B} m.
Arguments calls {B} m.
Arguments stdout {B} m.

Definition set_shared {B} (m : Mem B) (sm : StoreMem B) : Mem B :=
  {| shared := sm; services := services m; calls := calls m; stdout := stdout m |}.

Definition log_call {B} (c : StoreCall) (m : Mem B) : Mem B :=
  {| shared := shared m; services := services m;
     calls := calls m ++ [c]; stdout := stdout m |}.

(** Run code of the store on its part of the memory. *)
Definition in_store {B A} (c : M (StoreMem B) A) : M (Mem B) A :=
  fun m =>
    match c (shared m) with
    | Done a sm => Done a (set_shared m sm)
    | Panic why sm => Panic why (set_shared m sm)
    end.

(** [s.Insert(item)] on an interface value [s]: a nil interface panics,
    otherwise the method of the dynamic type runs on its receiver. *)
Definition call_Insert {B} (s : UserStorer B) (item : any) : M (Mem B) error :=
  fun m =>
    match s with
    | None => Panic nil_deref m
    | Some impl =>
        match in_store (Insert impl (recv impl) item) m with
        | Done e m' => Done e (log_call (CalledInsert item (Returned e)) m')
        | Panic why m' => Panic why (log_call (CalledInsert item Panicked) m')
        end
    end.

(** [s.Get(id, val)] on an interface value [s]. *)
Definition call_Get {B} (s : UserStorer B) (id : string) (val : any)
  : M (Mem B) error :=
  fun m =>
    match s with
    | None => Panic nil_deref m
    | Some impl =>
        match in_store (Get impl (recv impl) id val) m with
        | Done e m' => Done e (log_call (CalledGet id val (Returned e)) m')
        | Panic why m' => Panic why (log_call (CalledGet id val Panicked) m')
        end
    end.

(** A new [User] variable whose address is taken: a cell at an address not
    in use, holding [v]. *)
Definition new_User {B} (v : User) : M (Mem B) loc :=
  fun m =>
    let l := fresh (dom (users (shared m))) in
    Done l (set_shared m {| users := <[l := v]> (users (shared m));
                            backend := backend (shared m) |}).

(** Reading a [User] variable. Go never deallocates a cell that is still
    referenced; an address outside the map reads as the zero value. *)
Definition load_User {B} (l : loc) : M (Mem B) User :=
  fun m => Done (users (shared m) !!! l) m.

(** [u.store] for a receiver [u : *UserService]. *)
Definition load_service {B} (u : ptr) : M (Mem B) (UserService B) :=
  fun m =>
    match u with
    | None => Panic nil_deref m
    | Some l =>
        match services m !! l with
        | Some this => Done this m
        | None => Panic nil_deref m
        end
    end.

(** ** Package db (db/db.go) *)

Module db.

(** [func NewDB() *Store]: [&Store{db: &sql.DB{}}]. *)
Definition NewDB : M (StoreMem DBMem) ptr :=
  fun sm =>
    let d := fresh (dom (sql_DBs (backend sm))) in
    let s := fresh (dom (Stores (backend sm))) in
    Done (Some s)
      {| users := users sm;
         backend :=
           {| sql_DBs := <[d := zero_sql_DB]> (sql_DBs (backend sm));
              Stores := <[s := {| db := Some d |}]> (Stores (backend sm)) |} |}.

(** [func (s *Store) Insert(item interface{}) error]: the body is a
    to-do followed by [return nil]. *)
Definition Insert (s : ptr) (item : any) : M (StoreMem DBMem) error :=
  ret None.

(** [func (s *Store) Get(id string, val interface{}) error]: the body is
    a to-do followed by [return nil]. *)
Definition Get (s : ptr) (id : string) (val : any) : M (StoreMem DBMem) error :=
  ret None.

(** A [*Store] used where a [UserStorer] is expected. *)
Definition as_UserStorer (s : ptr) : UserStorer DBMem :=
  Some (mkUserStorer s Insert Get).

End db.

(** ** Package service (service/service.go) *)

Module service.
Section WithBackend.
Context {B : Type}.

(** [func NewUserService(s UserStorer) *UserService]:
    [&UserService{store: s}]. *)
Definition NewUserService (s : UserStorer B) : M (Mem B) ptr :=
  fun m =>
    let l := fresh (dom (services m)) in
    Done (Some l)
      {| shared := shared m;
         services := <[l := {| store := s |}]> (services m);
         calls := calls m;
         stdout := stdout m |}.

(** [func (u *UserService) CreateUser(ctx context.Context, user *User) error] *)
Definition CreateUser (u : ptr) (ctx : context.Context) (user : ptr) : M (Mem B) error :=
  this <- load_service u ;;
  err <- call_Insert (store this) (AnyUserPtr user) ;;
  match err with
  | Some _ => ret err
  | None => ret None
  end.

(** [func (u *UserService) RetrieveUser(ctx context.Context, id string) (interface{}, error)] *)
Definition RetrieveUser (u : ptr) (ctx : context.Context) (id : string)
  : M (Mem B) (any * error) :=
  user <- new_User zero_User ;;
  this <- load_service u ;;
  err <- call_Get (store this) id (AnyUserPtr (Some user)) ;;
  match err with
  | Some _ => ret (AnyNil, err)
  | None => v <- load_User user ;; ret (AnyUser v, None)
  end.

End WithBackend.
End service.

(** ** Package service as listed in the best-practices page

    The listing differs from service/service.go in [CreateUser] alone,
    which takes the record by value and boxes the value itself. *)

Module service_page.
Section WithBackend.
Context {B : Type}.

(** [func (u *UserService) CreateUser(ctx context.Context, user User) error] *)
Definition CreateUser (u : ptr) (ctx : context.Context) (user : User) : M (Mem B) error :=
  this <- load_service u ;;
  err <- call_Insert (store this) (AnyUser user) ;;
  match err with
  | Some _ => ret err
  | None => ret None
  end.

End WithBackend.
End service_page.

(** ** The part of package fmt that main uses *)

Definition newline : string := String (Ascii.ascii_of_nat 10) "".

(** How fmt renders an [error] operand. *)
Definition Sprint_error (e : error) : string :=
  match e with
  | None => "<nil>"
  | Some msg => msg
  end.

(** [fmt.Errorf(prefix + "%s", err)]. *)
Definition Errorf (prefix : string) (err : error) : error :=
  Some (prefix ++ Sprint_error err).

(** The verb [%+v] on a [*User]. *)
Definition Sprint_plus_v (user : option User) : string :=
  match user with
  | None => "<nil>"
  | Some v => "&{ID:" ++ ID v ++ " Email:" ++ Email v ++ "}"
  end.

Definition write {B} (s : string) : M (Mem B) unit :=
  fun m =>
    Done tt {| shared := shared m; services := services m;
               calls := calls m; stdout := stdout m ++ [s] |}.

(** [fmt.Println(err)]. *)
Definition Println_error {B} (e : error) : M (Mem B) unit :=
  write (Sprint_error e ++ newline).

(** [fmt.Printf(prefix + "%+v", user)] for [user : *User]: writes the text
    and returns the number of bytes written and a nil error. *)
Definition Printf_plus_v {B} (prefix : string) (user : ptr) : M (Mem B) (nat * error) :=
  fun m =>
    let text := prefix ++ Sprint_plus_v (l ← user; users (shared m) !! l) in
    match write text m with
    | Done _ m' => Done (String.length text, None) m'
    | Panic why m' => Panic why m'
    end.

(** [fmt.Println(n, err)] for the two results of [Printf]. *)
Definition Println_int_error {B} (r : nat * error) : M (Mem B) unit :=
  write (pretty (fst r) ++ " " ++ Sprint_error (snd r) ++ newline).

(** ** Package main (main.go) *)

(** The body of [func main()], with the composite literal of
    [user := &service.User{...}] as a parameter. *)
Definition main_with (literal : User) : M (Mem DBMem) unit :=
  let ctx := context.Background in
  store <- in_store db.NewDB ;;
  useService <- service.NewUserService (db.as_UserStorer store) ;;
  user <- new_User literal ;;
  err <- service.CreateUser useService ctx (Some user) ;;
  _ <- match err with
       | Some _ => Println_error (Errorf "error: " err)
       | None => ret tt
       end ;;
  r <- Printf_plus_v "User created: " (Some user) ;;
  Println_int_error r.

(** [func main()]: the literal is [service.User{}]. *)
Definition main : M (Mem DBMem) unit := main_with zero_User.

(** The memory of a process that has allocated nothing yet. *)
Definition start : Mem DBMem :=
  {| shared := {| users := ∅; backend := {| sql_DBs := ∅; Stores := ∅ |} |};
     services := ∅; calls := []; stdout := [] |}.

(** The record of the create scenario. *)
Definition scenario_user : User := {| ID := "1"; Email := "a@example.com" |}.

(** A line of the kind the failure branch of main prints. *)
Definition error_text (line : string) : bool := String.prefix "error: " line.

(** ** Runs of several calls *)

(** A sequence of calls on one [*Store]. A panic ends the run. *)
Inductive StoreOp : Type :=
| OpInsert (item : any)
| OpGet (id : string) (val : any).

Definition run_op (s : ptr) (o : StoreOp) : M (StoreMem DBMem) error :=
  match o with
  | OpInsert item => db.Insert s item
  | OpGet id val => db.Get s id val
  end.

Fixpoint run_ops (s : ptr) (os : list StoreOp) : M (StoreMem DBMem) unit :=
  match os with
  | [] => ret tt
  | o :: os' => _ <- run_op s o ;; run_ops s os'
  end.

(** The record an [interface{}] argument designates in a given memory. *)
Definition record_of {B} (item : any) (sm : StoreMem B) : option User :=
  match item with
  | AnyNil => None
  | AnyUser v => Some v
  | AnyUserPtr p => l ← p; users sm !! l
  end.

(** The identifiers of the records that [Insert] accepted (returned nil
    for) along a run that starts in [sm]. *)
Fixpoint inserted_ids (s : ptr) (os : list StoreOp) (sm : StoreMem DBMem)
  : list string :=
  match os with
  | [] => []
  | o :: os' =>
      let here :=
        match o, run_op s o sm with
        | OpInsert item, Done None _ =>
            match record_of item sm with
            | Some v => [ID v]
            | None => []
            end
        | _, _ => []
        end in
      here ++ inserted_ids s os' (mem_of (run_op s o sm))
  end.

(** A sequence of calls on one [*UserService]. A panic ends the run. *)
Inductive ServiceCall : Type :=
| DoCreateUser (ctx : context.Context) (user : ptr)
| DoRetrieveUser (ctx : context.Context) (id : string).

Definition run_call {B} (u : ptr) (c : ServiceCall) : M (Mem B) unit :=
  match c with
  | DoCreateUser ctx user => _ <- service.CreateUser u ctx user ;; ret tt
  | DoRetrieveUser ctx id => _ <- service.RetrieveUser u ctx id ;; ret tt
  end.

Fixpoint run_calls {B} (u : ptr) (cs : list ServiceCall) : M (Mem B) unit :=
  match cs with
  | [] => ret tt
  | c :: cs' => _ <- run_call u c ;; run_calls u cs'
  end.

(** ** Auxiliary notions for the statements *)

(** The address the variable [user] of [RetrieveUser] gets in [m], and the
    store's memory at the moment [Get] is called. *)
Definition slot_of {B} (m : Mem B) : loc := fresh (dom (users (shared m))).

Definition with_slot {B} (m : Mem B) : StoreMem B :=
  {| users := <[slot_of m := zero_User]> (users (shared m));
     backend := backend (shared m) |}.

(** The memory after the first three statements of main: a store, a
    service bound to it, and the scenario record at address 1. *)
Definition wired : Mem DBMem :=
  mem_of ((store <- in_store db.NewDB ;;
           useService <- service.NewUserService (db.as_UserStorer store) ;;
           new_User scenario_user) start).

(** A store for the retrieve scenario: its fetch of ["missing"] fails with
    a not-found error, every other call succeeds and writes nothing. *)
Definition missing_store : UserStorerImpl unit :=
  {| recv := None;
     Insert := fun _ _ => ret None;
     Get := fun _ id _ =>
              if String.eqb id "missing" then ret (Some "not found") else ret None |}.

Definition missing_wired : Mem unit :=
  mem_of (service.NewUserService (Some missing_store)
            {| shared := {| users := ∅; backend := tt |};
               services := ∅; calls := []; stdout := [] |}).

(** The store's memory of [wired] with one more zero [User] cell, at
    address 2, to fetch into. *)
Definition probe : StoreMem DBMem := with_slot wired.

(** The contract of fetch read on [*Store]: after any run of calls, [Get]
    of an identifier that no accepted record carries returns an error. *)
Definition Get_fails_when_absent : Prop :=
  forall (s : ptr) (os : list StoreOp) (id : string) (val : any)
         (sm : StoreMem DBMem),
    id ∉ inserted_ids s os sm ->
    exists e sm', (_ <- run_ops s os ;; db.Get s id val) sm = Done (Some e) sm'.

(** ** Further notions *)

(** Lines 20 to 24 of main.go: what main does with the result of the
    create call. *)
Definition report {B} (err : error) (user : ptr) : M (Mem B) unit :=
  _ <- match err with
       | Some _ => Println_error (Errorf "error: " err)
       | None => ret tt
       end ;;
  r <- Printf_plus_v "User created: " user ;;
  Println_int_error r.

(** The entry a service call leaves on the call history when the store
    method it reaches returns nil. *)
Definition store_call_of (c : ServiceCall) (sc : StoreCall) : Prop :=
  match c, sc with
  | DoCreateUser _ user, CalledInsert item r =>
      item = AnyUserPtr user /\ r = Returned None
  | DoRetrieveUser _ id, CalledGet id' val r =>
      id' = id /\ (exists l : loc, val = AnyUserPtr (Some l)) /\ r = Returned None
  | _, _ => False
  end.

(** A store that reads the record it is handed: its [Insert] looks
    through the pointer and panics on a nil one. *)
Definition reading_store : UserStorerImpl unit :=
  {| recv := None;
     Insert := fun _ item sm =>
                 match record_of item sm with
                 | Some _ => Done None sm
                 | None => Panic nil_deref sm
                 end;
     Get := fun _ _ _ => ret None |}.

Definition reading_wired : Mem unit :=
  mem_of (service.NewUserService (Some reading_store)
            {| shared := {| users := ∅; backend := tt |};
               services := ∅; calls := []; stdout := [] |}).

(** * Properties *)

(** ** The monad *)

Lemma bind_Done {S A C} (c : M S A) (k : A -> M S C) s a s' :
  c s = Done a s' -> bind c k s = k a s'.
Proof. intros E. unfold bind. by rewrite E. Qed.

Lemma mem_of_bind_frame {S A C T} (f : S -> T) (c : M S A) (k : A -> M S C) s :
  f (mem_of (c s)) = f s ->
  (forall a s', f (mem_of (k a s')) = f s') ->
  f (mem_of (bind c k s)) = f s.
Proof.
  intros Hc Hk. unfold bind.
  destruct (c s) as [a s'|why s']; simpl in *; [by rewrite Hk | done].
Qed.

(** ** The stub store *)

Lemma stub_call_Insert (s : ptr) (item : any) (m : Mem DBMem) :
  call_Insert (db.as_UserStorer s) item m
  = Done None (log_call (CalledInsert item (Returned None)) m).
Proof. by destruct m. Qed.

Lemma stub_call_Get (s : ptr) (id : string) (val : any) (m : Mem DBMem) :
  call_Get (db.as_UserStorer s) id val m
  = Done None (log_call (CalledGet id val (Returned None)) m).
Proof. by destruct m. Qed.

Lemma run_ops_stub (s : ptr) (os : list StoreOp) (sm : StoreMem DBMem) :
  run_ops s os sm = Done tt sm.
Proof.
  induction os as [|o os IH]; [done|].
  simpl. rewrite (bind_Done _ _ sm None sm); [exact IH|by destruct o].
Qed.

(** ** What the service methods do to each part of the memory *)

Section Frames.
Context {B : Type}.
Implicit Types (m : Mem B) (s : UserStorer B) (u user : ptr).

Lemma call_Insert_services s item m :
  services (mem_of (call_Insert s item m)) = services m.
Proof.
  unfold call_Insert, in_store. destruct s as [impl|]; [|done].
  by destruct (Insert impl (recv impl) item (shared m)).
Qed.

Lemma call_Get_services s id val m :
  services (mem_of (call_Get s id val m)) = services m.
Proof.
  unfold call_Get, in_store. destruct s as [impl|]; [|done].
  by destruct (Get impl (recv impl) id val (shared m)).
Qed.

Lemma load_service_mem u m : mem_of (load_service (B := B) u m) = m.
Proof.
  unfold load_service. destruct u as [l|]; [|done].
  by destruct (services m !! l).
Qed.

Lemma load_service_Some (l : loc) m this :
  services m !! l = Some this -> load_service (Some l) m = Done this m.
Proof. intros E. unfold load_service. by rewrite E. Qed.

Lemma CreateUser_services u ctx user m :
  services (mem_of (service.CreateUser u ctx user m)) = services m.
Proof.
  unfold service.CreateUser.
  apply (mem_of_bind_frame services); [by rewrite load_service_mem|].
  intros this m1. apply (mem_of_bind_frame services).
  - apply call_Insert_services.
  - by intros [e|] m2.
Qed.

Lemma RetrieveUser_services u ctx id m :
  services (mem_of (service.RetrieveUser u ctx id m)) = services m.
Proof.
  unfold service.RetrieveUser.
  apply (mem_of_bind_frame services); [done|].
  intros slot m1. apply (mem_of_bind_frame services);
    [by rewrite load_service_mem|].
  intros this m2. apply (mem_of_bind_frame services).
  - apply call_Get_services.
  - by intros [e|] m3.
Qed.

Lemma run_calls_services u (cs : list ServiceCall) m :
  services (mem_of (run_calls u cs m)) = services m.
Proof.
  revert m. induction cs as [|c cs IH]; intros m; [done|].
  simpl. apply (mem_of_bind_frame services); [|by intros; apply IH].
  destruct c as [ctx user|ctx id]; simpl;
    (apply (mem_of_bind_frame services); [|done]).
  - apply CreateUser_services.
  - apply RetrieveUser_services.
Qed.

(** [CreateUser] on a live service is the interface call and nothing
    else: the error is returned as it came. *)
Lemma CreateUser_is_call_Insert (l : loc) ctx user m this :
  services m !! l = Some this ->
  service.CreateUser (Some l) ctx user m
  = call_Insert (store this) (AnyUserPtr user) m.
Proof.
  intros E. unfold service.CreateUser.
  rewrite (bind_Done _ _ _ _ _ (load_service_Some _ _ _ E)).
  unfold bind. by destruct (call_Insert _ _ m) as [[e|] m'|why m'].
Qed.

(** [RetrieveUser] on a live service, by how [Get] ends. *)
Lemma RetrieveUser_run (l : loc) ctx id m impl :
  services m !! l = Some {| store := Some impl |} ->
  let val := AnyUserPtr (Some (slot_of m)) in
  service.RetrieveUser (Some l) ctx id m
  = match Get impl (recv impl) id val (with_slot m) with
    | Done (Some e) sm' =>
        Done (AnyNil, Some e)
          (log_call (CalledGet id val (Returned (Some e))) (set_shared m sm'))
    | Done None sm' =>
        Done (AnyUser (users sm' !!! slot_of m), None)
          (log_call (CalledGet id val (Returned None)) (set_shared m sm'))
    | Panic why sm' =>
        Panic why (log_call (CalledGet id val Panicked) (set_shared m sm'))
    end.
Proof.
  intros E val. unfold service.RetrieveUser, bind, new_User, load_service.
  simpl. rewrite E. unfold call_Get, in_store. simpl.
  fold (slot_of m). fold (with_slot m). fold val.
  by destruct (Get impl (recv impl) id val (with_slot m)) as [[e|] sm'|why sm'].
Qed.

End Frames.

(** ** The memory the examples run in *)

Lemma wired_service :
  services wired !! 1%positive
  = Some {| store := db.as_UserStorer (Some 1%positive) |}.
Proof. reflexivity. Qed.

Lemma wired_user : users (shared wired) !! 1%positive = Some scenario_user.
Proof. reflexivity. Qed.

(** ** The service *)

(** C1. On a service bound to a store implementation, [CreateUser] is the
    store's [Insert] applied to the boxed pointer and nothing more: it ends
    the way the interface call ends, returns the very error [Insert]
    returned (nil exactly when [Insert] returned nil), and returns nil
    against a store whose [Insert] always returns nil. *)
Theorem CreateUser_returns_Insert_error
    {B : Type} (impl : UserStorerImpl B) (u : loc) (ctx : context.Context)
    (user : ptr) (m : Mem B) :
  services m !! u = Some {| store := Some impl |} ->
  let ins := Insert impl (recv impl) (AnyUserPtr user) (shared m) in
  let out := service.CreateUser (Some u) ctx user m in
  out = call_Insert (Some impl) (AnyUserPtr user) m
  /\ returned out = returned ins
  /\ (returned out = Some None <-> returned ins = Some None)
  /\ ((forall item sm, returned (Insert impl (recv impl) item sm) = Some None) ->
      returned out = Some None).
Proof.
  intros E ins out.
  assert (Hout : out = call_Insert (Some impl) (AnyUserPtr user) m)
    by exact (CreateUser_is_call_Insert u ctx user m _ E).
  assert (Hret : returned out = returned ins).
  { rewrite Hout. unfold call_Insert, in_store. fold ins. by destruct ins. }
  repeat split; try done.
  - by rewrite Hret.
  - by rewrite Hret.
  - intros Hok. rewrite Hret. apply Hok.
Qed.

Lemma CreateUser_returns_Insert_error_witness :
  services wired !! 1%positive
  = Some {| store := Some (mkUserStorer (Some 1%positive) db.Insert db.Get) |}
  /\ (forall item sm, returned (db.Insert (Some 1%positive) item sm) = Some None)
  /\ returned (service.CreateUser (Some 1%positive) context.Background
                 (Some 1%positive) wired)
     = Some None.
Proof.
  split; [reflexivity|]. split; [intros item sm; reflexivity|].
  refine (proj2 (proj2 (proj2
    (CreateUser_returns_Insert_error
       (mkUserStorer (Some 1%positive) db.Insert db.Get)
       1%positive context.Background (Some 1%positive) wired _))) _).
  - reflexivity.
  - intros item sm. reflexivity.
Defined.

(** C2. On a service bound to a store implementation, [RetrieveUser]
    takes an address not in use, puts a zero [User] there, and calls
    [Get(id, &user)]; when [Get] returns an error it returns the nil
    interface and that error, when [Get] returns nil it returns what the
    cell then holds and nil. *)
Theorem RetrieveUser_delegates_to_Get
    {B : Type} (impl : UserStorerImpl B) (u : loc) (ctx : context.Context)
    (id : string) (m : Mem B) :
  services m !! u = Some {| store := Some impl |} ->
  let slot := slot_of m in
  let val := AnyUserPtr (Some slot) in
  users (shared m) !! slot = None
  /\ users (with_slot m) !! slot = Some zero_User
  /\ match Get impl (recv impl) id val (with_slot m) with
     | Done (Some e) sm' =>
         service.RetrieveUser (Some u) ctx id m
         = Done (AnyNil, Some e)
             (log_call (CalledGet id val (Returned (Some e))) (set_shared m sm'))
     | Done None sm' =>
         service.RetrieveUser (Some u) ctx id m
         = Done (AnyUser (users sm' !!! slot), None)
             (log_call (CalledGet id val (Returned None)) (set_shared m sm'))
     | Panic why sm' =>
         service.RetrieveUser (Some u) ctx id m
         = Panic why (log_call (CalledGet id val Panicked) (set_shared m sm'))
     end.
Proof.
  intros E slot val. split; [|split].
  - apply not_elem_of_dom, is_fresh.
  - apply lookup_insert_eq.
  - rewrite (RetrieveUser_run u ctx id m impl E). fold slot val.
    by destruct (Get impl (recv impl) id val (with_slot m)) as [[e|] sm'|why sm'].
Qed.

Lemma RetrieveUser_delegates_to_Get_witness :
  services missing_wired !! 1%positive = Some {| store := Some missing_store |}
  /\ returned (service.RetrieveUser (Some 1%positive) context.Background
                 "missing" missing_wired)
     = Some (AnyNil, Some "not found").
Proof.
  split; [reflexivity|].
  pose proof (RetrieveUser_delegates_to_Get missing_store 1%positive
                context.Background "missing" missing_wired eq_refl)
    as (_ & _ & H).
  simpl in H. rewrite H. reflexivity.
Defined.

(** ** The stub store *)

(** C4. The methods of [*Store] do nothing: [Insert] and [Get] return nil
    for every receiver and every argument and leave the whole memory,
    the cell behind the output pointer included, as it was. *)
Theorem stub_store_is_noop
    (s : ptr) (item val : any) (id : string) (l : loc) (sm : StoreMem DBMem) :
  db.Insert s item sm = Done None sm
  /\ db.Get s id val sm = Done None sm
  /\ users (mem_of (db.Get s id (AnyUserPtr (Some l)) sm)) !! l = users sm !! l
  /\ backend (mem_of (db.Insert s item sm)) = backend sm.
Proof. by repeat split. Qed.

(** C5. [NewUserService(s)] returns the address of a new cell whose
    [store] field is [s]; a [UserService] has no other field; and no
    sequence of [CreateUser] and [RetrieveUser] calls changes any
    [UserService] cell, so the cell still holds [s] afterwards. *)
Theorem service_keeps_its_store
    {B : Type} (s : UserStorer B) (m : Mem B) :
  exists l : loc,
    returned (service.NewUserService s m) = Some (Some l)
    /\ services m !! l = None
    /\ services (mem_of (service.NewUserService s m)) !! l = Some {| store := s |}
    /\ (forall this : UserService B, this = {| store := store this |})
    /\ (forall (u : ptr) (ctx : context.Context) (user : ptr) (m1 : Mem B),
          services (mem_of (service.CreateUser u ctx user m1)) = services m1)
    /\ (forall (u : ptr) (ctx : context.Context) (id : string) (m1 : Mem B),
          services (mem_of (service.RetrieveUser u ctx id m1)) = services m1)
    /\ (forall cs : list ServiceCall,
          services (mem_of (run_calls (Some l) cs
                              (mem_of (service.NewUserService s m)))) !! l
          = Some {| store := s |}).
Proof.
  exists (fresh (dom (services m))). repeat split.
  - apply not_elem_of_dom, is_fresh.
  - apply lookup_insert_eq.
  - by intros [st].
  - apply CreateUser_services.
  - apply RetrieveUser_services.
  - intros cs. rewrite run_calls_services. apply lookup_insert_eq.
Qed.

(** C3, as the stub has it. After any run of [Insert] and [Get] calls,
    for every identifier, carried by an accepted record or not, [Get] on
    [*Store] returns nil and leaves every cell, the output slot included,
    as it was before the run. *)
Theorem stub_Get_always_reports_success
    (s : ptr) (os : list StoreOp) (id : string) (val : any)
    (sm : StoreMem DBMem) :
  (_ <- run_ops s os ;; db.Get s id val) sm = Done None sm
  /\ (forall l : loc,
        users (mem_of ((_ <- run_ops s os ;; db.Get s id val) sm)) !! l
        = users sm !! l).
Proof.
  assert (E : (_ <- run_ops s os ;; db.Get s id val) sm = Done None sm).
  { by rewrite (bind_Done _ _ sm tt sm (run_ops_stub s os sm)). }
  split; [exact E|]. intros l. by rewrite E.
Qed.

(** C3 fails on the stub: with the scenario record accepted and nothing
    else, the fetch of ["missing"] into the zero cell at address 2
    returns nil and the cell stays zero. *)
Lemma stub_Get_missing_succeeds :
  let os := [OpInsert (AnyUserPtr (Some 1%positive))] in
  let val := AnyUserPtr (Some 2%positive) in
  inserted_ids (Some 1%positive) os probe = ["1"]
  /\ ("missing" ∉ inserted_ids (Some 1%positive) os probe)
  /\ users probe !! 2%positive = Some zero_User
  /\ (_ <- run_ops (Some 1%positive) os ;; db.Get (Some 1%positive) "missing" val) probe
     = Done None probe
  /\ ~ Get_fails_when_absent.
Proof.
  intros os val.
  assert (Hids : inserted_ids (Some 1%positive) os probe = ["1"]) by reflexivity.
  assert (Hnot : "missing" ∉ inserted_ids (Some 1%positive) os probe).
  { rewrite Hids. intros Hin. apply list_elem_of_singleton in Hin. discriminate. }
  repeat split; try done.
  intros Hclaim.
  destruct (Hclaim (Some 1%positive) os "missing" val probe Hnot) as (e & sm' & He).
  discriminate He.
Qed.

(** ** The service on the stub store *)

Lemma CreateUser_on_stub (u : loc) (s : ptr) ctx (user : ptr) (m : Mem DBMem) :
  services m !! u = Some {| store := db.as_UserStorer s |} ->
  service.CreateUser (Some u) ctx user m
  = Done None (log_call (CalledInsert (AnyUserPtr user) (Returned None)) m).
Proof.
  intros E. rewrite (CreateUser_is_call_Insert u ctx user m _ E).
  apply stub_call_Insert.
Qed.

Lemma page_CreateUser_on_stub (u : loc) (s : ptr) ctx (v : User) (m : Mem DBMem) :
  services m !! u = Some {| store := db.as_UserStorer s |} ->
  service_page.CreateUser (Some u) ctx v m
  = Done None (log_call (CalledInsert (AnyUser v) (Returned None)) m).
Proof.
  intros E. unfold service_page.CreateUser.
  rewrite (bind_Done _ _ _ _ _ (load_service_Some _ _ _ E)).
  unfold bind. simpl store. by rewrite stub_call_Insert.
Qed.

(** C6. Against the stub store the two [CreateUser] listings cannot be
    told apart by their results: for a record [v] held at address [l],
    the call by pointer with [l] and the call by value with [v] both
    return nil, and leave the same memory of store and caller, the same
    services and the same output, namely those they started from, so the
    caller's record is still [v]. *)
Theorem CreateUser_by_pointer_or_by_value
    (u l : loc) (s : ptr) (ctx : context.Context) (v : User) (m : Mem DBMem) :
  services m !! u = Some {| store := db.as_UserStorer s |} ->
  users (shared m) !! l = Some v ->
  let by_pointer := service.CreateUser (Some u) ctx (Some l) m in
  let by_value := service_page.CreateUser (Some u) ctx v m in
  returned by_pointer = Some None
  /\ returned by_value = Some None
  /\ shared (mem_of by_pointer) = shared (mem_of by_value)
  /\ services (mem_of by_pointer) = services (mem_of by_value)
  /\ stdout (mem_of by_pointer) = stdout (mem_of by_value)
  /\ shared (mem_of by_pointer) = shared m
  /\ users (shared (mem_of by_pointer)) !! l = Some v
  /\ users (shared (mem_of by_value)) !! l = Some v.
Proof.
  intros E Hv by_pointer by_value.
  subst by_pointer by_value.
  rewrite (CreateUser_on_stub u s ctx (Some l) m E).
  rewrite (page_CreateUser_on_stub u s ctx v m E).
  by repeat split.
Qed.

Lemma CreateUser_by_pointer_or_by_value_witness :
  services wired !! 1%positive = Some {| store := db.as_UserStorer (Some 1%positive) |}
  /\ users (shared wired) !! 1%positive = Some scenario_user
  /\ shared (mem_of (service.CreateUser (Some 1%positive) context.Background (Some 1%positive) wired))
     = shared (mem_of (service_page.CreateUser (Some 1%positive) context.Background scenario_user wired)).
Proof.
  split; [exact wired_service|]. split; [exact wired_user|].
  exact (proj1 (proj2 (proj2
    (CreateUser_by_pointer_or_by_value 1%positive 1%positive (Some 1%positive)
       context.Background scenario_user wired eq_refl eq_refl)))).
Defined.

(** C9. On a service bound to the stub store, [CreateUser] returns nil
    and the record behind the pointer has the same [ID] and the same
    [Email] after the call as before; no other cell changes either. *)
Theorem CreateUser_on_stub_keeps_record
    (u l : loc) (s : ptr) (ctx : context.Context) (v : User) (m : Mem DBMem) :
  services m !! u = Some {| store := db.as_UserStorer s |} ->
  users (shared m) !! l = Some v ->
  exists (m' : Mem DBMem) (v' : User),
    service.CreateUser (Some u) ctx (Some l) m = Done None m'
    /\ users (shared m') !! l = Some v'
    /\ ID v' = ID v
    /\ Email v' = Email v
    /\ users (shared m') = users (shared m).
Proof.
  intros E Hv. eexists _, v.
  rewrite (CreateUser_on_stub u s ctx (Some l) m E).
  by repeat split.
Qed.

Lemma CreateUser_on_stub_keeps_record_witness :
  services wired !! 1%positive = Some {| store := db.as_UserStorer (Some 1%positive) |}
  /\ users (shared wired) !! 1%positive = Some scenario_user
  /\ exists (m' : Mem DBMem) (v' : User),
       service.CreateUser (Some 1%positive) context.Background (Some 1%positive) wired
       = Done None m'
       /\ users (shared m') !! 1%positive = Some v'
       /\ ID v' = "1"
       /\ Email v' = "a@example.com"
       /\ users (shared m') = users (shared wired).
Proof.
  split; [exact wired_service|]. split; [exact wired_user|].
  exact (CreateUser_on_stub_keeps_record 1%positive 1%positive (Some 1%positive)
           context.Background scenario_user wired eq_refl eq_refl).
Defined.

(** C10. [CreateUser] does not read through the pointer it is given. On
    a service bound to any store implementation, a nil [user] reaches
    [Insert] boxed as it is and the call ends as that [Insert] call ends;
    on a service bound to the stub store the call returns nil without a
    panic, having changed nothing but the call history. *)
Theorem CreateUser_nil_user
    (u : loc) (s : ptr) (ctx : context.Context) (m : Mem DBMem) :
  services m !! u = Some {| store := db.as_UserStorer s |} ->
  service.CreateUser (Some u) ctx None m
  = Done None (log_call (CalledInsert (AnyUserPtr None) (Returned None)) m)
  /\ (forall (B : Type) (impl : UserStorerImpl B) (m1 : Mem B),
        services m1 !! u = Some {| store := Some impl |} ->
        service.CreateUser (Some u) ctx None m1
        = call_Insert (Some impl) (AnyUserPtr None) m1).
Proof.
  intros E. split.
  - exact (CreateUser_on_stub u s ctx None m E).
  - intros B impl m1 E1. exact (CreateUser_is_call_Insert u ctx None m1 _ E1).
Qed.

Lemma CreateUser_nil_user_witness :
  services wired !! 1%positive = Some {| store := db.as_UserStorer (Some 1%positive) |}
  /\ service.CreateUser (Some 1%positive) context.Background None wired
     = Done None (log_call (CalledInsert (AnyUserPtr None) (Returned None)) wired).
Proof.
  split; [exact wired_service|].
  exact (proj1 (CreateUser_nil_user 1%positive (Some 1%positive) context.Background
                  wired eq_refl)).
Defined.

(** C8. Whenever [RetrieveUser] returns, the record is the nil interface
    exactly when the error is not nil, and with a nil error it is a boxed
    [User]; and on a service bound to a store implementation it does
    return, with [Get]'s error, whenever the [Get] call returns, whether
    or not [Get] wrote to the cell. *)
Theorem RetrieveUser_nil_record_iff_error
    {B : Type} (impl : UserStorerImpl B) (u : loc) (ctx : context.Context)
    (id : string) (m : Mem B) (e : error) (sm' : StoreMem B) :
  services m !! u = Some {| store := Some impl |} ->
  Get impl (recv impl) id (AnyUserPtr (Some (slot_of m))) (with_slot m)
  = Done e sm' ->
  (exists (r : any) (m' : Mem B),
     service.RetrieveUser (Some u) ctx id m = Done (r, e) m'
     /\ (r = AnyNil <-> e <> None)
     /\ (e = None -> r = AnyUser (users sm' !!! slot_of m)))
  /\ (forall (u1 : ptr) (ctx1 : context.Context) (id1 : string) (m1 m2 : Mem B)
             (r : any) (e1 : error),
        service.RetrieveUser u1 ctx1 id1 m1 = Done (r, e1) m2 ->
        (r = AnyNil <-> e1 <> None) /\ (e1 = None -> exists v, r = AnyUser v)).
Proof.
  intros E HGet. split.
  - rewrite (RetrieveUser_run u ctx id m impl E). simpl. rewrite HGet.
    destruct e as [msg|]; eexists _, _; (split; [reflexivity|]); split;
      try done.
  - clear. intros u1 ctx1 id1 m1 m2 r e1.
    unfold service.RetrieveUser, bind, new_User.
    destruct (load_service u1 _) as [this m3|]; [|done].
    destruct (call_Get _ _ _ m3) as [[msg|] m4|]; [| |done].
    + intros [= <- <- <-]. by split.
    + unfold load_User, ret. intros [= <- <- <-]. split; [by split|eauto].
Qed.

Lemma RetrieveUser_nil_record_iff_error_witness :
  services wired !! 1%positive = Some {| store := db.as_UserStorer (Some 1%positive) |}
  /\ db.Get (Some 1%positive) "1" (AnyUserPtr (Some (slot_of wired))) (with_slot wired)
     = Done None (with_slot wired)
  /\ returned (service.RetrieveUser (Some 1%positive) context.Background "1" wired)
     = Some (AnyUser zero_User, None).
Proof.
  split; [reflexivity|]. split; [reflexivity|].
  destruct (proj1 (RetrieveUser_nil_record_iff_error
                     (mkUserStorer (Some 1%positive) db.Insert db.Get)
                     1%positive context.Background "1" wired None (with_slot wired)
                     eq_refl eq_refl)) as (r & m' & Hrun & _ & Hr).
  rewrite Hrun, (Hr eq_refl). reflexivity.
Defined.

(** ** The wiring *)

(** Each [CreateUser] call on a live service puts exactly one [Insert]
    call, of the boxed pointer, on the history. *)
Lemma CreateUser_one_Insert
    {B : Type} (impl : UserStorerImpl B) (u : loc) ctx (user : ptr) (m : Mem B) :
  services m !! u = Some {| store := Some impl |} ->
  exists r : CallResult,
    calls (mem_of (service.CreateUser (Some u) ctx user m))
    = (calls m ++ [CalledInsert (AnyUserPtr user) r])%list.
Proof.
  intros E. rewrite (CreateUser_is_call_Insert u ctx user m _ E).
  unfold call_Insert, in_store. simpl.
  destruct (Insert impl (recv impl) (AnyUserPtr user) (shared m));
    simpl; eauto.
Qed.

(** What main does from any memory, for any literal. *)
Lemma main_with_run (literal : User) (m0 : Mem DBMem) :
  let user := fresh (dom (users (shared m0))) in
  let text := "User created: " ++ Sprint_plus_v (Some literal) in
  exists m' : Mem DBMem,
    main_with literal m0 = Done tt m'
    /\ calls m' = (calls m0 ++ [CalledInsert (AnyUserPtr (Some user)) (Returned None)])%list
    /\ users (shared m') = <[user := literal]> (users (shared m0))
    /\ stdout m' = (stdout m0
                    ++ [text; (pretty (String.length text) ++ " <nil>" ++ newline)%string])%list.
Proof.
  intros user text. eexists. split.
  - unfold main_with, bind, in_store, db.NewDB, service.NewUserService, new_User.
    simpl.
    rewrite (CreateUser_on_stub _ (Some (fresh (dom (Stores (backend (shared m0))))))).
    2: { simpl. apply lookup_insert_eq. }
    unfold Printf_plus_v, write, Println_int_error. simpl.
    fold user. rewrite lookup_insert_eq. simpl. fold text. reflexivity.
  - simpl. by rewrite <- app_assoc.
Qed.

(** C7. Run from any memory with the scenario record as its literal,
    main returns normally; one call crossed the store interface, the
    [Insert] of the pointer to that record, and it returned nil; the two
    writes to standard output are the created-user text and the result
    of [Printf], and neither is an error line. *)
Theorem main_creates_once_without_error_text (m0 : Mem DBMem) :
  exists (user : loc) (m' : Mem DBMem),
    main_with scenario_user m0 = Done tt m'
    /\ calls m' = (calls m0 ++ [CalledInsert (AnyUserPtr (Some user)) (Returned None)])%list
    /\ users (shared m') !! user = Some scenario_user
    /\ stdout m' = (stdout m0 ++ ["User created: &{ID:1 Email:a@example.com}";
                                   ("41 <nil>" ++ newline)%string])%list
    /\ Forall (fun line => error_text line = false)
         (drop (length (stdout m0)) (stdout m')).
Proof.
  destruct (main_with_run scenario_user m0) as (m' & Hrun & Hcalls & Husers & Hout).
  exists (fresh (dom (users (shared m0)))), m'.
  split; [exact Hrun|]. split; [exact Hcalls|].
  split; [rewrite Husers; apply lookup_insert_eq|].
  split; [exact Hout|].
  rewrite Hout, drop_app_length. by repeat constructor.
Qed.

(** main as it stands, with the literal [service.User{}], from the memory
    of a fresh process. *)
Lemma main_run :
  exists m' : Mem DBMem,
    main start = Done tt m'
    /\ calls m' = [CalledInsert (AnyUserPtr (Some 1%positive)) (Returned None)]
    /\ stdout m' = ["User created: &{ID: Email:}"; "27 <nil>" ++ newline].
Proof. eexists. by repeat split. Qed.

(** * Further properties *)

(** ** Package db *)

(** X1. [NewDB] returns the address of a new [Store] whose [db] field is
    the address of a new zero [sql.DB]; both addresses were unused, every
    cell that existed before is as it was, and no [User] cell changes. *)
Theorem NewDB_allocates (sm : StoreMem DBMem) :
  exists (s d : loc) (sm' : StoreMem DBMem),
    db.NewDB sm = Done (Some s) sm'
    /\ Stores (backend sm) !! s = None
    /\ sql_DBs (backend sm) !! d = None
    /\ Stores (backend sm') !! s = Some {| db := Some d |}
    /\ sql_DBs (backend sm') !! d = Some zero_sql_DB
    /\ (forall s' : loc, s' <> s ->
          Stores (backend sm') !! s' = Stores (backend sm) !! s')
    /\ (forall d' : loc, d' <> d ->
          sql_DBs (backend sm') !! d' = sql_DBs (backend sm) !! d')
    /\ users sm' = users sm.
Proof.
  eexists _, _, _. split; [reflexivity|]. simpl.
  split; [apply not_elem_of_dom, is_fresh|].
  split; [apply not_elem_of_dom, is_fresh|].
  split; [apply lookup_insert_eq|].
  split; [apply lookup_insert_eq|].
  split; [intros s' Hs; by apply lookup_insert_ne|].
  split; [intros d' Hd; by apply lookup_insert_ne|].
  reflexivity.
Qed.

Lemma fresh_after_insert {V : Type} (h : gmap loc V) (v : V) :
  fresh (dom (<[fresh (dom h) := v]> h)) <> fresh (dom h).
Proof.
  intros E.
  apply (is_fresh (dom (<[fresh (dom h) := v]> h))).
  rewrite E at 1. rewrite dom_insert_L. set_solver.
Qed.

(** X2. Two calls of [NewDB] give two stores: the addresses differ, and
    so do the addresses of their [sql.DB] handles; there is no shared
    instance behind the constructor. *)
Theorem NewDB_twice_distinct (sm : StoreMem DBMem) :
  exists (s1 s2 d1 d2 : loc) (sm' : StoreMem DBMem),
    (p1 <- db.NewDB ;; p2 <- db.NewDB ;; ret (p1, p2)) sm
    = Done (Some s1, Some s2) sm'
    /\ s1 <> s2
    /\ d1 <> d2
    /\ Stores (backend sm') !! s1 = Some {| db := Some d1 |}
    /\ Stores (backend sm') !! s2 = Some {| db := Some d2 |}.
Proof.
  eexists _, _, _, _, _. split; [reflexivity|]. simpl.
  pose proof (fresh_after_insert (Stores (backend sm))) as Hs.
  pose proof (fresh_after_insert (sql_DBs (backend sm))) as Hd.
  split; [intros E; eapply Hs; symmetry; exact E|].
  split; [intros E; eapply Hd; symmetry; exact E|].
  split; [|apply lookup_insert_eq].
  rewrite lookup_insert_ne; [apply lookup_insert_eq|apply Hs].
Qed.

(** ** Package service: construction and panics *)

(** X3. [NewUserService] makes no store call and touches nothing but the
    new cell: the store's memory, the call history, standard output and
    every [UserService] cell that existed before are as they were; and a
    second service built from the same store is a different cell bound to
    that same store. *)
Theorem NewUserService_frame {B : Type} (s : UserStorer B) (m : Mem B) :
  let m1 := mem_of (service.NewUserService s m) in
  shared m1 = shared m
  /\ calls m1 = calls m
  /\ stdout m1 = stdout m
  /\ (forall (l : loc) (this : UserService B),
        services m !! l = Some this -> services m1 !! l = Some this)
  /\ (exists l1 l2 : loc,
        (u1 <- service.NewUserService s ;;
         u2 <- service.NewUserService s ;; ret (u1, u2)) m
        = Done (Some l1, Some l2) (mem_of (service.NewUserService s m1))
        /\ l1 <> l2
        /\ services (mem_of (service.NewUserService s m1)) !! l1
           = Some {| store := s |}
        /\ services (mem_of (service.NewUserService s m1)) !! l2
           = Some {| store := s |}).
Proof.
  intros m1. repeat (split; [reflexivity|]). split.
  - intros l this E. simpl. rewrite lookup_insert_ne; [done|].
    intros <-. pose proof (is_fresh (dom (services m))) as Hf.
    apply not_elem_of_dom in Hf. congruence.
  - eexists _, _. split; [reflexivity|]. simpl.
    pose proof (fresh_after_insert (services m) {| store := s |}) as Hne.
    split; [intros E; apply Hne; symmetry; exact E|].
    split; [|apply lookup_insert_eq].
    rewrite lookup_insert_ne; [apply lookup_insert_eq|exact Hne].
Qed.

(** Called on a nil [*UserService], [CreateUser] panics with a nil
    dereference before anything happens, and [RetrieveUser] panics with
    it after its variable was allocated; neither reaches a store. *)
Lemma nil_receiver_panics
    {B : Type} (ctx : context.Context) (user : ptr) (id : string) (m : Mem B) :
  service.CreateUser None ctx user m = Panic nil_deref m
  /\ service.RetrieveUser None ctx id m
     = Panic nil_deref (set_shared m (with_slot m))
  /\ calls (mem_of (service.RetrieveUser None ctx id m)) = calls m.
Proof. by repeat split. Qed.

(** X5. [NewUserService] accepts a nil store without complaint; the
    service it returns panics with a nil dereference on the first
    [CreateUser] and on the first [RetrieveUser], and records no store
    call. *)
Theorem nil_store_panics_on_first_use
    {B : Type} (ctx : context.Context) (user : ptr) (id : string) (m : Mem B) :
  exists (l : loc) (m1 : Mem B),
    service.NewUserService None m = Done (Some l) m1
    /\ service.CreateUser (Some l) ctx user m1 = Panic nil_deref m1
    /\ service.RetrieveUser (Some l) ctx id m1
       = Panic nil_deref (set_shared m1 (with_slot m1))
    /\ calls (mem_of (service.RetrieveUser (Some l) ctx id m1)) = calls m.
Proof.
  eexists _, _. split; [reflexivity|].
  unfold service.CreateUser, service.RetrieveUser, bind, new_User, load_service.
  simpl. rewrite lookup_insert_eq. by repeat split.
Qed.

(** X6. The service does not recover from a panic of its store: when
    [Insert] panics so does [CreateUser], and when [Get] panics so does
    [RetrieveUser], with the same message and with whatever the store had
    done to the memory by then. *)
Theorem store_panic_propagates
    {B : Type} (impl : UserStorerImpl B) (u : loc) (ctx : context.Context)
    (user : ptr) (id : string) (m : Mem B) :
  services m !! u = Some {| store := Some impl |} ->
  (forall why sm',
     Insert impl (recv impl) (AnyUserPtr user) (shared m) = Panic why sm' ->
     service.CreateUser (Some u) ctx user m
     = Panic why (log_call (CalledInsert (AnyUserPtr user) Panicked)
                    (set_shared m sm')))
  /\ (forall why sm',
        Get impl (recv impl) id (AnyUserPtr (Some (slot_of m))) (with_slot m)
        = Panic why sm' ->
        service.RetrieveUser (Some u) ctx id m
        = Panic why (log_call (CalledGet id (AnyUserPtr (Some (slot_of m))) Panicked)
                       (set_shared m sm'))).
Proof.
  intros E. split.
  - intros why sm' HI.
    rewrite (CreateUser_is_call_Insert u ctx user m _ E).
    unfold call_Insert, in_store. simpl. by rewrite HI.
  - intros why sm' HG.
    rewrite (RetrieveUser_run u ctx id m impl E). simpl. by rewrite HG.
Qed.

Lemma store_panic_propagates_witness :
  services reading_wired !! 1%positive = Some {| store := Some reading_store |}
  /\ Insert reading_store (recv reading_store) (AnyUserPtr None) (shared reading_wired)
     = Panic nil_deref (shared reading_wired)
  /\ service.CreateUser (Some 1%positive) context.Background None reading_wired
     = Panic nil_deref
         (log_call (CalledInsert (AnyUserPtr None) Panicked)
            (set_shared reading_wired (shared reading_wired))).
Proof.
  split; [reflexivity|]. split; [reflexivity|].
  exact (proj1 (store_panic_propagates reading_store 1%positive
                  context.Background None "1" reading_wired eq_refl)
           nil_deref (shared reading_wired) eq_refl).
Defined.

(** ** The service on the stub store, call after call *)

Lemma RetrieveUser_on_stub (u : loc) (s : ptr) ctx (id : string) (m : Mem DBMem) :
  services m !! u = Some {| store := db.as_UserStorer s |} ->
  service.RetrieveUser (Some u) ctx id m
  = Done (AnyUser zero_User, None)
      (log_call (CalledGet id (AnyUserPtr (Some (slot_of m))) (Returned None))
         (set_shared m (with_slot m))).
Proof.
  intros E. rewrite (RetrieveUser_run u ctx id m _ E). simpl.
  by rewrite lookup_total_insert_eq.
Qed.

Lemma run_call_on_stub (u : loc) (s : ptr) (c : ServiceCall) (m : Mem DBMem) :
  services m !! u = Some {| store := db.as_UserStorer s |} ->
  exists (m' : Mem DBMem) (sc : StoreCall),
    run_call (Some u) c m = Done tt m'
    /\ services m' = services m
    /\ stdout m' = stdout m
    /\ calls m' = (calls m ++ [sc])%list
    /\ store_call_of c sc.
Proof.
  intros E. destruct c as [ctx user|ctx id]; simpl; unfold bind.
  - rewrite (CreateUser_on_stub u s ctx user m E).
    eexists _, _. by repeat split.
  - rewrite (RetrieveUser_on_stub u s ctx id m E).
    eexists _, _. repeat split; eauto.
Qed.

Lemma run_calls_on_stub (u : loc) (s : ptr) (cs : list ServiceCall) (m : Mem DBMem) :
  services m !! u = Some {| store := db.as_UserStorer s |} ->
  exists (m' : Mem DBMem) (scs : list StoreCall),
    run_calls (Some u) cs m = Done tt m'
    /\ services m' = services m
    /\ stdout m' = stdout m
    /\ calls m' = (calls m ++ scs)%list
    /\ Forall2 store_call_of cs scs.
Proof.
  revert m. induction cs as [|c cs IH]; intros m E.
  - exists m, []. repeat split; [by rewrite app_nil_r|constructor].
  - destruct (run_call_on_stub u s c m E) as (m1 & sc & Hrun & Hsv & Hout & Hcalls & Hsc).
    destruct (IH m1) as (m2 & scs & Hrun2 & Hsv2 & Hout2 & Hcalls2 & Hscs);
      [by rewrite Hsv|].
    exists m2, (sc :: scs). simpl.
    rewrite (bind_Done _ _ _ _ _ Hrun).
    split; [exact Hrun2|]. split; [congruence|]. split; [congruence|].
    split; [|by constructor].
    rewrite Hcalls2, Hcalls, <- app_assoc. reflexivity.
Qed.

(** X7. On a service bound to the stub store nothing created can be read
    back: after any sequence of [CreateUser] and [RetrieveUser] calls,
    [RetrieveUser] of any identifier returns the zero [User] and a nil
    error. *)
Theorem RetrieveUser_on_stub_reads_nothing_back
    (u : loc) (s : ptr) (cs : list ServiceCall) (ctx : context.Context)
    (id : string) (m : Mem DBMem) :
  services m !! u = Some {| store := db.as_UserStorer s |} ->
  returned ((_ <- run_calls (Some u) cs ;; service.RetrieveUser (Some u) ctx id) m)
  = Some (AnyUser zero_User, None).
Proof.
  intros E.
  destruct (run_calls_on_stub u s cs m E) as (m' & scs & Hrun & Hsv & _).
  rewrite (bind_Done _ _ _ _ _ Hrun).
  rewrite (RetrieveUser_on_stub u s ctx id m'); [done|by rewrite Hsv].
Qed.

Lemma RetrieveUser_on_stub_reads_nothing_back_witness :
  services wired !! 1%positive = Some {| store := db.as_UserStorer (Some 1%positive) |}
  /\ users (shared wired) !! 1%positive = Some scenario_user
  /\ returned ((_ <- run_calls (Some 1%positive)
                       [DoCreateUser context.Background (Some 1%positive)] ;;
                service.RetrieveUser (Some 1%positive) context.Background "1") wired)
     = Some (AnyUser zero_User, None).
Proof.
  split; [exact wired_service|]. split; [exact wired_user|].
  exact (RetrieveUser_on_stub_reads_nothing_back 1%positive (Some 1%positive)
           [DoCreateUser context.Background (Some 1%positive)]
           context.Background "1" wired eq_refl).
Defined.

(** X8. On a service bound to the stub store no sequence of calls
    panics, and the store sees one call per service call, in the same
    order: an [Insert] of the boxed pointer for each [CreateUser], a [Get]
    of the identifier into some [*User] for each [RetrieveUser], each
    returning nil; standard output is not written. *)
Theorem run_calls_on_stub_history
    (u : loc) (s : ptr) (cs : list ServiceCall) (m : Mem DBMem) :
  services m !! u = Some {| store := db.as_UserStorer s |} ->
  exists (m' : Mem DBMem) (scs : list StoreCall),
    run_calls (Some u) cs m = Done tt m'
    /\ calls m' = (calls m ++ scs)%list
    /\ Forall2 store_call_of cs scs
    /\ length scs = length cs
    /\ stdout m' = stdout m.
Proof.
  intros E.
  destruct (run_calls_on_stub u s cs m E) as (m' & scs & Hrun & _ & Hout & Hcalls & Hscs).
  exists m', scs. repeat split; try done.
  symmetry. by eapply Forall2_length.
Qed.

Lemma run_calls_on_stub_history_witness :
  services wired !! 1%positive = Some {| store := db.as_UserStorer (Some 1%positive) |}
  /\ exists (m' : Mem DBMem) (scs : list StoreCall),
       run_calls (Some 1%positive)
         [DoCreateUser context.Background (Some 1%positive);
          DoRetrieveUser context.Background "1"] wired = Done tt m'
       /\ calls m' = (calls wired ++ scs)%list
       /\ Forall2 store_call_of
            [DoCreateUser context.Background (Some 1%positive);
             DoRetrieveUser context.Background "1"] scs
       /\ length scs = 2
       /\ stdout m' = stdout wired.
Proof.
  split; [exact wired_service|].
  exact (run_calls_on_stub_history 1%positive (Some 1%positive)
           [DoCreateUser context.Background (Some 1%positive);
            DoRetrieveUser context.Background "1"] wired eq_refl).
Defined.



(** ** The service on any store *)

(** X10. The [CreateUser] of the page listing, on a service bound to a
    store implementation, is the store's [Insert] applied to the boxed
    copy of the record: it ends as that call ends and returns the error
    [Insert] returned. *)
Theorem page_CreateUser_returns_Insert_error
    {B : Type} (impl : UserStorerImpl B) (u : loc) (ctx : context.Context)
    (v : User) (m : Mem B) :
  services m !! u = Some {| store := Some impl |} ->
  service_page.CreateUser (Some u) ctx v m = call_Insert (Some impl) (AnyUser v) m
  /\ returned (service_page.CreateUser (Some u) ctx v m)
     = returned (Insert impl (recv impl) (AnyUser v) (shared m)).
Proof.
  intros E.
  assert (H : service_page.CreateUser (Some u) ctx v m
              = call_Insert (Some impl) (AnyUser v) m).
  { unfold service_page.CreateUser.
    rewrite (bind_Done _ _ _ _ _ (load_service_Some _ _ _ E)).
    unfold bind. simpl store.
    by destruct (call_Insert _ _ m) as [[e|] m'|why m']. }
  split; [exact H|]. rewrite H. unfold call_Insert, in_store.
  by destruct (Insert impl (recv impl) (AnyUser v) (shared m)).
Qed.

Lemma page_CreateUser_returns_Insert_error_witness :
  services reading_wired !! 1%positive = Some {| store := Some reading_store |}
  /\ returned (service_page.CreateUser (Some 1%positive) context.Background
                 scenario_user reading_wired)
     = Some None.
Proof.
  split; [reflexivity|].
  rewrite (proj2 (page_CreateUser_returns_Insert_error reading_store 1%positive
                    context.Background scenario_user reading_wired eq_refl)).
  reflexivity.
Defined.

(** X11. Whatever the store does, a service call reaches it exactly
    once: [CreateUser] adds one [Insert] of the boxed pointer to the call
    history and [RetrieveUser] adds one [Get] of the identifier into its
    new variable; neither calls the other method, and neither calls
    again after an error or a panic. *)
Theorem service_call_reaches_store_once
    {B : Type} (impl : UserStorerImpl B) (u : loc) (ctx : context.Context)
    (user : ptr) (id : string) (m : Mem B) :
  services m !! u = Some {| store := Some impl |} ->
  (exists r : CallResult,
     calls (mem_of (service.CreateUser (Some u) ctx user m))
     = (calls m ++ [CalledInsert (AnyUserPtr user) r])%list)
  /\ (exists r : CallResult,
        calls (mem_of (service.RetrieveUser (Some u) ctx id m))
        = (calls m ++ [CalledGet id (AnyUserPtr (Some (slot_of m))) r])%list).
Proof.
  intros E. split.
  - exact (CreateUser_one_Insert impl u ctx user m E).
  - rewrite (RetrieveUser_run u ctx id m impl E). simpl.
    destruct (Get impl (recv impl) id _ (with_slot m)) as [[e|] sm'|why sm'];
      simpl; eauto.
Qed.

Lemma service_call_reaches_store_once_witness :
  services missing_wired !! 1%positive = Some {| store := Some missing_store |}
  /\ (exists r : CallResult,
        calls (mem_of (service.CreateUser (Some 1%positive) context.Background
                         None missing_wired))
        = (calls missing_wired ++ [CalledInsert (AnyUserPtr None) r])%list)
  /\ (exists r : CallResult,
        calls (mem_of (service.RetrieveUser (Some 1%positive) context.Background
                         "missing" missing_wired))
        = (calls missing_wired
           ++ [CalledGet "missing" (AnyUserPtr (Some (slot_of missing_wired))) r])%list).
Proof.
  split; [reflexivity|].
  exact (service_call_reaches_store_once missing_store 1%positive
           context.Background None "missing" missing_wired eq_refl).
Defined.

(** ** Package main *)

Lemma length_append (s1 s2 : string) :
  String.length (s1 ++ s2) = String.length s1 + String.length s2.
Proof. induction s1 as [|a s1 IH]; simpl; [done|by rewrite IH]. Qed.

(** X12. For every literal, main writes twice: the text
    [User created: &{ID:<id> Email:<email>}], without a newline, and
    then, because [Println] is given the results of [Printf], the number
    of bytes of that text, 27 plus the lengths of the two fields,
    followed by [<nil>] and a newline. *)
Theorem main_prints_text_then_byte_count (literal : User) (m0 : Mem DBMem) :
  exists m' : Mem DBMem,
    main_with literal m0 = Done tt m'
    /\ stdout m'
       = (stdout m0
          ++ [("User created: &{ID:" ++ ID literal ++ " Email:" ++ Email literal ++ "}")%string;
              (pretty (27 + String.length (ID literal) + String.length (Email literal))
               ++ " <nil>" ++ newline)%string])%list.
Proof.
  destruct (main_with_run literal m0) as (m' & Hrun & _ & _ & Hout).
  exists m'. split; [exact Hrun|]. rewrite Hout.
  assert (Hlen : String.length ("User created: " ++ Sprint_plus_v (Some literal))
                 = 27 + String.length (ID literal) + String.length (Email literal)).
  { unfold Sprint_plus_v. rewrite !length_append. simpl. lia. }
  rewrite Hlen. reflexivity.
Qed.

(** X13. From any memory main builds one store, one service and one
    record, each in a cell that was not in use; the service is bound to
    the store [NewDB] returned, the record is the literal, still
    unchanged when main ends, and every other cell is as it was. *)
Theorem main_wires_service_to_new_store (literal : User) (m0 : Mem DBMem) :
  exists (s d u user : loc) (m' : Mem DBMem),
    main_with literal m0 = Done tt m'
    /\ Stores (backend (shared m0)) !! s = None
    /\ sql_DBs (backend (shared m0)) !! d = None
    /\ services m0 !! u = None
    /\ users (shared m0) !! user = None
    /\ Stores (backend (shared m'))
       = <[s := {| db := Some d |}]> (Stores (backend (shared m0)))
    /\ sql_DBs (backend (shared m'))
       = <[d := zero_sql_DB]> (sql_DBs (backend (shared m0)))
    /\ services m'
       = <[u := {| store := db.as_UserStorer (Some s) |}]> (services m0)
    /\ users (shared m') = <[user := literal]> (users (shared m0)).
Proof.
  exists (fresh (dom (Stores (backend (shared m0))))),
         (fresh (dom (sql_DBs (backend (shared m0))))),
         (fresh (dom (services m0))),
         (fresh (dom (users (shared m0)))).
  eexists. split.
  - unfold main_with, bind, in_store, db.NewDB, service.NewUserService, new_User.
    simpl.
    rewrite (CreateUser_on_stub _ (Some (fresh (dom (Stores (backend (shared m0))))))).
    2: { simpl. apply lookup_insert_eq. }
    unfold Printf_plus_v, write, Println_int_error. simpl. reflexivity.
  - simpl. repeat split; apply not_elem_of_dom, is_fresh.
Qed.

(** X14. The failure branch of main does not leave main: handed an error
    by the create call, the last statements print [error: ] followed by
    the error's text and a newline, and then print the created-user text
    and the byte count all the same. main is its first four statements
    followed by these. *)
Theorem main_goes_on_after_failed_create
    {B : Type} (msg : string) (user : ptr) (m : Mem B) :
  let text := "User created: " ++ Sprint_plus_v (l ← user; users (shared m) !! l) in
  (forall literal : User,
     main_with literal
     = (store <- in_store db.NewDB ;;
        useService <- service.NewUserService (db.as_UserStorer store) ;;
        user <- new_User literal ;;
        err <- service.CreateUser useService context.Background (Some user) ;;
        report err (Some user)))
  /\ (exists m' : Mem B,
        report (Some msg) user m = Done tt m'
        /\ stdout m'
           = (stdout m
              ++ [("error: " ++ msg ++ newline)%string;
                  text;
                  (pretty (String.length text) ++ " <nil>" ++ newline)%string])%list
        /\ shared m' = shared m
        /\ services m' = services m
        /\ calls m' = calls m)
  /\ (exists m' : Mem B,
        report None user m = Done tt m'
        /\ stdout m'
           = (stdout m
              ++ [text;
                  (pretty (String.length text) ++ " <nil>" ++ newline)%string])%list).
Proof.
  intros text. split; [reflexivity|]. split.
  - eexists. split; [reflexivity|]. simpl.
    repeat split. rewrite <- !app_assoc. reflexivity.
  - eexists. split; [reflexivity|]. simpl.
    rewrite <- !app_assoc. reflexivity.
Qed.

(** ** The call history *)

Lemma run_call_history {B : Type} (u : ptr) (c : ServiceCall) (m : Mem B) :
  exists scs : list StoreCall,
    calls (mem_of (run_call u c m)) = (calls m ++ scs)%list
    /\ length scs <= 1.
Proof.
  assert (Hnone : exists scs : list StoreCall,
             calls m = (calls m ++ scs)%list /\ length scs <= 1).
  { exists []. split; [by rewrite app_nil_r|simpl; lia]. }
  destruct c as [ctx user|ctx id]; simpl;
    unfold service.CreateUser, service.RetrieveUser, bind, new_User, load_service;
    simpl.
  - destruct u as [l|]; [|exact Hnone].
    destruct (services m !! l) as [[[impl|]]|]; try exact Hnone.
    unfold call_Insert, in_store. simpl.
    destruct (Insert impl (recv impl) _ (shared m)) as [[e|] sm'|why sm'];
      simpl; eexists [_]; split; try reflexivity; simpl; lia.
  - destruct u as [l|]; [|exact Hnone].
    destruct (services m !! l) as [[[impl|]]|]; try exact Hnone.
    unfold call_Get, in_store. simpl.
    destruct (Get impl (recv impl) _ _ _) as [[e|] sm'|why sm'];
      simpl; eexists [_]; split; try reflexivity; simpl; lia.
Qed.

(** X4. For every store, every receiver and every sequence of service
    calls, the call history only grows at its end, and by at most one
    store call per service call: the service never repeats a store call,
    whether the store returned an error or panicked. *)
Theorem run_calls_history_bounded
    {B : Type} (u : ptr) (cs : list ServiceCall) (m : Mem B) :
  exists scs : list StoreCall,
    calls (mem_of (run_calls u cs m)) = (calls m ++ scs)%list
    /\ length scs <= length cs.
Proof.
  revert m. induction cs as [|c cs IH]; intros m.
  - exists []. split; [by rewrite app_nil_r|done].
  - destruct (run_call_history u c m) as (scs1 & H1 & L1).
    simpl. unfold bind.
    destruct (run_call u c m) as [[] m1|why m1]; simpl in *.
    + destruct (IH m1) as (scs2 & H2 & L2).
      exists (scs1 ++ scs2)%list. rewrite H2, H1, <- app_assoc.
      split; [done|]. rewrite length_app. lia.
    + exists scs1. split; [done|lia].
Qed.
